(** * kaldi/tensor: tensor-common.h

    A shallow embedding of [src/tensor/tensor-common.h]: the device and
    data-type enumerations, the byte-width query [SizeOf], the default
    device / dtype registers with their scoped guards [WithDeviceAs] and
    [WithDtypeAs], the [TensorOptions] constructors, the tick counter and
    the debug flag.

    The header's free functions read and write four process-wide variables.
    They are embedded in ExtLib's state monad over the record [Globals];
    [SizeOf], which touches no global, is embedded as a pure function whose
    result records how control leaves the function body. *)

From Stdlib Require Import ZArith List String Bool Lia DecimalString Sorted Finite.
From ExtLib Require Import Structures.Monad Structures.MonadState.
From ExtLib Require Import Data.Monads.StateMonad.
Import ListNotations.
Import MonadNotation.
Local Open Scope monad_scope.
Local Open Scope Z_scope.

(** ** Fixed-width integers *)

(** [typedef int64_t int64; typedef int32_t int32;] -- values are carried
    as [Z], reduced to the two's-complement range of the given width. *)
Definition wrap_signed (bits : Z) (z : Z) : Z :=
  (z + 2 ^ (bits - 1)) mod 2 ^ bits - 2 ^ (bits - 1).

Definition int32 := Z.
Definition int64 := Z.
Definition to_int32 (z : Z) : int32 := wrap_signed 32 z.
Definition to_int64 (z : Z) : int64 := wrap_signed 64 z.
Definition INT64_MAX : Z := 2 ^ 63 - 1.
Definition INT64_MIN : Z := - 2 ^ 63.

(** ** Enumerations *)

(** [enum DeviceType { kCpuDevice = 0, kCudaDevice = 1 };] *)
Inductive DeviceType : Type :=
| kCpuDevice
| kCudaDevice.

(** [struct Device { DeviceType device_type; ... };] *)
Record Device : Type := MkDevice { device_type : DeviceType }.

(** [Device(): device_type(kCpuDevice) { }] *)
Definition Device_new : Device := MkDevice kCpuDevice.

(** [Device(DeviceType t): device_type(t) { }] -- also the implicit
    conversion from a bare [DeviceType] tag to a [Device]. *)
Definition Device_of_type (t : DeviceType) : Device := MkDevice t.

(** [enum DataType { kDefaultDtype = 0, kFloatDtype = 1, kDoubleDtype = 2 };]

    [SizeOf] switches on the integer value of its argument ([case 0:],
    [case 1:], [case 2:]) and prints [int32(dtype)], so a [DataType] is
    carried as its integer value.  The enumeration has no fixed underlying
    type; its values are those of a two-bit field, 0..3. *)
Definition DataType := Z.
Definition kDefaultDtype : DataType := 0.
Definition kFloatDtype : DataType := 1.
Definition kDoubleDtype : DataType := 2.

(** The values a [DataType] object can hold. *)
Definition DataType_in_range (d : DataType) : bool := (0 <=? d) && (d <=? 3).

(** The declared enumerators. *)
Definition DataType_known (d : DataType) : bool :=
  (d =? kDefaultDtype) || (d =? kFloatDtype) || (d =? kDoubleDtype).

(** The concrete variants: every enumerator but the placeholder
    [kDefaultDtype] ("the type used when not specified"). *)
Definition DataType_concrete (d : DataType) : bool :=
  (d =? kFloatDtype) || (d =? kDoubleDtype).

(** [enum StridePolicy], [enum InitializePolicy], [enum UnaryFunctionEnum],
    [enum BinaryFunctionEnum]: plain tags, no operation in this header
    consumes them. *)
Inductive StridePolicy : Type := kKeepStrideOrder | kNormalized | kCopyStrides.
Inductive InitializePolicy : Type := kZeroData | kUninitialized.
Inductive UnaryFunctionEnum : Type :=
| kUnaryFunctionExp | kUnaryFunctionLog | kUnaryFunctionRelu
| kUnaryFunctionInvert | kUnaryFunctionSquare.
Inductive BinaryFunctionEnum : Type :=
| kBinaryFunctionAdd | kBinaryFunctionDivide
| kBinaryFunctionMax | kBinaryFunctionMin.

(** [#define KALDI_TENSOR_MAX_AXES 6] *)
Definition KALDI_TENSOR_MAX_AXES : Z := 6.

(** ** SizeOf *)

(** How control leaves a statement of a function returning [A]:
    - [Falls]: execution continues with the next statement; for the last
      statement of the body this is control reaching the closing brace
      without a [return];
    - [Returns v]: a [return v;] was executed;
    - [Throws msg]: a fatal error with diagnostic [msg] was raised. *)
Inductive flow (A : Type) : Type :=
| Falls
| Returns (v : A)
| Throws (msg : string).
Arguments Falls {A}.
Arguments Returns {A} v.
Arguments Throws {A} msg.

(** Statement sequencing [s1; s2]. *)
Definition seq_flow {A : Type} (s1 s2 : flow A) : flow A :=
  match s1 with
  | Falls => s2
  | Returns v => Returns v
  | Throws msg => Throws msg
  end.
Notation "s1 ;;; s2" := (seq_flow s1 s2) (at level 62, right associativity).

(** Modelled from the spec: the macro [KALDI_ERR] (base/kaldi-error.h is not
    part of the given sources).  The statement [KALDI_ERR << a << b;] "must
    fail fatally with a diagnostic identifying the offending value" and
    "terminate the current unit of work immediately": it raises the streamed
    text and nothing after it runs. *)
Definition KALDI_ERR {A : Type} (streamed : string) : flow A := Throws streamed.

(** [operator<<] on an [int32]: decimal digits. *)
Definition show_int32 (z : int32) : string := NilZero.string_of_int (Z.to_int z).

(** [[
inline int32 SizeOf(DataType dtype) {
  switch(dtype) {
    case 0: return 4;
    case 1: return 8;
    case 2: KALDI_ERR << "Invalid data-type " << int32(dtype); return 0;
  }
}
]]
    The switch has no [default:] label: for any other value no statement of
    the switch runs and control reaches the end of the function. *)
Definition SizeOf (dtype : DataType) : flow int32 :=
  match dtype with
  | 0 => Returns 4
  | 1 => Returns 8
  | 2 => KALDI_ERR ("Invalid data-type " ++ show_int32 (to_int32 dtype))
         ;;; Returns 0
  | _ => Falls
  end.

(** [SizeOf] yields a byte width: some [return] statement is reached. *)
Definition returns_width (r : flow int32) : bool :=
  match r with
  | Returns _ => true
  | _ => false
  end.

(** [SizeOf] fails fatally with a diagnostic that names [dtype]. *)
Definition fails_naming (dtype : DataType) (r : flow int32) : bool :=
  match r with
  | Throws msg =>
      String.eqb msg ("Invalid data-type " ++ show_int32 (to_int32 dtype))
  | _ => false
  end.

(** ** Process-wide state *)

(** Modelled from the spec: the two default-context registers behind
    [GetDefaultDevice] / [SetDefaultDevice] and [GetDefaultDtype] /
    [SetDefaultDtype].  The header only declares these four functions;
    their definitions and the variables they use (tensor-common.cc) are not
    part of the given sources.  "Two independent process-wide registers
    holding current default device and current default numeric type". *)
Record Registers : Type := MkRegisters {
  default_device : Device;
  default_dtype : DataType
}.

(** The variables every function of the header can reach:
    [extern int64 g_tick_counter;], [extern bool debug_mode;] and the
    default-context registers. *)
Record Globals : Type := MkGlobals {
  registers : Registers;
  g_tick_counter : int64;
  debug_mode : bool
}.

Definition with_default_device (d : Device) (g : Globals) : Globals :=
  MkGlobals (MkRegisters d (default_dtype (registers g)))
            (g_tick_counter g) (debug_mode g).

Definition with_default_dtype (d : DataType) (g : Globals) : Globals :=
  MkGlobals (MkRegisters (default_device (registers g)) d)
            (g_tick_counter g) (debug_mode g).

Definition with_tick_counter (c : int64) (g : Globals) : Globals :=
  MkGlobals (registers g) c (debug_mode g).

Definition with_debug_mode (b : bool) (g : Globals) : Globals :=
  MkGlobals (registers g) (g_tick_counter g) b.

(** Modelled from the spec: the initial value of the default-device register
    (its definition, in tensor-common.cc, is not part of the given sources).
    "Initialized once ... with fixed initial values (device = CPU, ...)". *)
Definition default_device_init : Device := Device_new.

(** Modelled from the spec: the initialiser of [debug_mode] (its definition,
    in tensor-common.cc, is not part of the given sources).  "DebugFlag:
    boolean, global, defaults to false". *)
Definition debug_mode_init : bool := false.

(** "Global variable, initialized from zero" (comment at the declaration of
    [g_tick_counter]). *)
Definition g_tick_counter_init : int64 := 0.

(** State at process start.  The spec leaves the initial default dtype open
    ("an implementation-chosen concrete default"); it is the parameter
    [dtype0]. *)
Definition initial_globals (dtype0 : DataType) : Globals :=
  MkGlobals (MkRegisters default_device_init dtype0)
            g_tick_counter_init debug_mode_init.

(** Computations over the globals. *)
Definition M : Type -> Type := state Globals.

(** ** Default context registers *)

(** Modelled from the spec: [Device GetDefaultDevice();] (definition not in
    the given sources).  "A getter returns exactly the value most recently
    installed by a setter (or the initial value if none was ever set)". *)
Definition GetDefaultDevice : M Device :=
  g <- get ;; ret (default_device (registers g)).

(** Modelled from the spec: [void SetDefaultDevice(Device device);]
    (definition not in the given sources).  "A setter unconditionally
    overwrites the register". *)
Definition SetDefaultDevice (device : Device) : M unit :=
  g <- get ;; put (with_default_device device g).

(** Modelled from the spec: [DataType GetDefaultDtype();] (definition not in
    the given sources); same contract as [GetDefaultDevice]. *)
Definition GetDefaultDtype : M DataType :=
  g <- get ;; ret (default_dtype (registers g)).

(** Modelled from the spec: [void SetDefaultDtype(DataType dtype);]
    (definition not in the given sources); same contract as
    [SetDefaultDevice]. *)
Definition SetDefaultDtype (dtype : DataType) : M unit :=
  g <- get ;; put (with_default_dtype dtype g).

(** A call to one of the four register functions, and what it returns. *)
Inductive register_call : Type :=
| CallSetDefaultDevice (device : Device)
| CallSetDefaultDtype (dtype : DataType)
| CallGetDefaultDevice
| CallGetDefaultDtype.

Inductive register_result : Type :=
| ResVoid
| ResDevice (device : Device)
| ResDtype (dtype : DataType).

Definition do_call (c : register_call) : M register_result :=
  match c with
  | CallSetDefaultDevice device => SetDefaultDevice device ;; ret ResVoid
  | CallSetDefaultDtype dtype => SetDefaultDtype dtype ;; ret ResVoid
  | CallGetDefaultDevice => d <- GetDefaultDevice ;; ret (ResDevice d)
  | CallGetDefaultDtype => d <- GetDefaultDtype ;; ret (ResDtype d)
  end.

(** The calls of [cs] made one after the other; the results in call order. *)
Fixpoint do_calls (cs : list register_call) : M (list register_result) :=
  match cs with
  | [] => ret []
  | c :: cs' => r <- do_call c ;; rs <- do_calls cs' ;; ret (r :: rs)
  end.

(** The arguments of the [SetDefaultDevice] (resp. [SetDefaultDtype]) calls
    of [cs], oldest first: the last element is the most recent one. *)
Definition devices_installed (cs : list register_call) : list Device :=
  flat_map (fun c => match c with
                     | CallSetDefaultDevice d => [d]
                     | _ => []
                     end) cs.

Definition dtypes_installed (cs : list register_call) : list DataType :=
  flat_map (fun c => match c with
                     | CallSetDefaultDtype d => [d]
                     | _ => []
                     end) cs.

(** ** Scoped guards *)

Module WithDeviceAs.

(** [class WithDeviceAs { ... private: Device prev_default_; };] *)
Record t : Type := Mk { prev_default_ : Device }.

(** [[
inline WithDeviceAs(Device device):
    prev_default_(GetDefaultDevice()) {
  SetDefaultDevice(device);
}
]] *)
Definition ctor (device : Device) : M t :=
  prev <- GetDefaultDevice ;;
  SetDefaultDevice device ;;
  ret (Mk prev).

(** [~WithDeviceAs() { SetDefaultDevice(prev_default_); }] *)
Definition dtor (this : t) : M unit :=
  SetDefaultDevice (prev_default_ this).

(** A block [{ WithDeviceAs guard(device); body }]: the guard is an
    automatic object, destroyed when the block is left. *)
Definition block {A : Type} (device : Device) (body : M A) : M A :=
  this <- ctor device ;;
  r <- body ;;
  dtor this ;;
  ret r.

End WithDeviceAs.

Module WithDtypeAs.

(** [class WithDtypeAs { ... private: DataType prev_default_; };] *)
Record t : Type := Mk { prev_default_ : DataType }.

(** [[
inline WithDtypeAs(DataType dtype):
    prev_default_(GetDefaultDtype()) {
  SetDefaultDtype(dtype);
}
]] *)
Definition ctor (dtype : DataType) : M t :=
  prev <- GetDefaultDtype ;;
  SetDefaultDtype dtype ;;
  ret (Mk prev).

(** [~WithDtypeAs() { SetDefaultDtype(prev_default_); }] *)
Definition dtor (this : t) : M unit :=
  SetDefaultDtype (prev_default_ this).

(** A block [{ WithDtypeAs guard(dtype); body }]. *)
Definition block {A : Type} (dtype : DataType) (body : M A) : M A :=
  this <- ctor dtype ;;
  r <- body ;;
  dtor this ;;
  ret r.

End WithDtypeAs.

(** Guards of either class: a declaration [WithDtypeAs g(dtype);] or
    [WithDeviceAs g(device);], and the object it creates. *)
Inductive guard_decl : Type :=
| DeclWithDtypeAs (dtype : DataType)
| DeclWithDeviceAs (device : Device).

Inductive guard_obj : Type :=
| ObjWithDtypeAs (g : WithDtypeAs.t)
| ObjWithDeviceAs (g : WithDeviceAs.t).

Definition construct_guard (d : guard_decl) : M guard_obj :=
  match d with
  | DeclWithDtypeAs dtype => g <- WithDtypeAs.ctor dtype ;; ret (ObjWithDtypeAs g)
  | DeclWithDeviceAs device => g <- WithDeviceAs.ctor device ;; ret (ObjWithDeviceAs g)
  end.

Definition destroy_guard (o : guard_obj) : M unit :=
  match o with
  | ObjWithDtypeAs g => WithDtypeAs.dtor g
  | ObjWithDeviceAs g => WithDeviceAs.dtor g
  end.

(** Entering nested scopes, one guard declared in each, outermost first.
    [live] are the guard objects of the scopes already open, innermost
    first (automatic objects are destroyed in reverse order of creation). *)
Fixpoint enter_scopes (ds : list guard_decl) (live : list guard_obj)
  : M (list guard_obj) :=
  match ds with
  | [] => ret live
  | d :: ds' => o <- construct_guard d ;; enter_scopes ds' (o :: live)
  end.

(** Leaving the [n] innermost open scopes. *)
Fixpoint leave_scopes (n : nat) (live : list guard_obj) : M (list guard_obj) :=
  match n, live with
  | S n', o :: live' => destroy_guard o ;; leave_scopes n' live'
  | _, _ => ret live
  end.


(** ** TensorOptions *)

(** [struct TensorOptions { DataType dtype; Device device; ... };] *)
Record TensorOptions : Type := MkTensorOptions {
  dtype : DataType;
  device : Device
}.

(** The constructors.  Members are initialised in declaration order,
    [dtype] before [device]. *)

(** [TensorOptions(): dtype(GetDefaultDtype()), device(GetDefaultDevice()) { }] *)
Definition TensorOptions_new : M TensorOptions :=
  dt <- GetDefaultDtype ;;
  dev <- GetDefaultDevice ;;
  ret (MkTensorOptions dt dev).

(** [TensorOptions(DataType dtype): dtype(dtype), device(GetDefaultDevice()) { }] *)
Definition TensorOptions_of_dtype (dtype : DataType) : M TensorOptions :=
  dev <- GetDefaultDevice ;;
  ret (MkTensorOptions dtype dev).

(** [TensorOptions(Device device): dtype(GetDefaultDtype()), device(device) { }] *)
Definition TensorOptions_of_device (device : Device) : M TensorOptions :=
  dt <- GetDefaultDtype ;;
  ret (MkTensorOptions dt device).

(** [TensorOptions(DeviceType device_type):
       dtype(GetDefaultDtype()), device(device_type) { }] *)
Definition TensorOptions_of_device_type (device_type : DeviceType)
  : M TensorOptions :=
  dt <- GetDefaultDtype ;;
  ret (MkTensorOptions dt (Device_of_type device_type)).

(** [TensorOptions(DataType dtype, Device device):
       dtype(dtype), device(device) { }] *)
Definition TensorOptions_of_dtype_device (dtype : DataType) (device : Device)
  : M TensorOptions :=
  ret (MkTensorOptions dtype device).

(** [TensorOptions(DataType dtype, Device device_type):
       dtype(dtype), device(device_type) { }] -- declared a second time with
    the same parameter types. *)
Definition TensorOptions_of_dtype_device' (dtype : DataType)
  (device_type : Device) : M TensorOptions :=
  ret (MkTensorOptions dtype device_type).

(** [TensorOptions(const TensorOptions &other):
       dtype(other.dtype), device(other.device) { }] *)
Definition TensorOptions_copy (other : TensorOptions) : M TensorOptions :=
  ret (MkTensorOptions (dtype other) (device other)).

(** The argument lists a [TensorOptions] can be constructed from, and the
    constructor each one selects. *)
Inductive ctor_args : Type :=
| ArgsNone
| ArgsDtype (dtype : DataType)
| ArgsDevice (device : Device)
| ArgsDeviceType (device_type : DeviceType)
| ArgsDtypeDevice (dtype : DataType) (device : Device)
| ArgsDtypeDevice' (dtype : DataType) (device_type : Device)
| ArgsCopy (other : TensorOptions).

Definition TensorOptions_construct (a : ctor_args) : M TensorOptions :=
  match a with
  | ArgsNone => TensorOptions_new
  | ArgsDtype dt => TensorOptions_of_dtype dt
  | ArgsDevice dev => TensorOptions_of_device dev
  | ArgsDeviceType t => TensorOptions_of_device_type t
  | ArgsDtypeDevice dt dev => TensorOptions_of_dtype_device dt dev
  | ArgsDtypeDevice' dt dev => TensorOptions_of_dtype_device' dt dev
  | ArgsCopy other => TensorOptions_copy other
  end.

(** The dtype the caller hands to the constructor, if any (for the copy
    constructor, the dtype of the options copied from). *)
Definition supplied_dtype (a : ctor_args) : option DataType :=
  match a with
  | ArgsDtype dt | ArgsDtypeDevice dt _ | ArgsDtypeDevice' dt _ => Some dt
  | ArgsCopy other => Some (dtype other)
  | ArgsNone | ArgsDevice _ | ArgsDeviceType _ => None
  end.

(** A device is concrete when its tag is one of the two device kinds; the
    struct has no placeholder value. *)
Definition Device_concrete (d : Device) : bool :=
  match device_type d with
  | kCpuDevice => true
  | kCudaDevice => true
  end.

(** ** Tick counter *)

(** [inline int64 NextTick() { return ++g_tick_counter; }]

    The pre-increment stores the incremented value and yields it.  At
    [INT64_MAX] the increment overflows; it is written here as the
    two's-complement wrap-around. *)
Definition NextTick : M int64 :=
  g <- get ;;
  let c := to_int64 (g_tick_counter g + 1) in
  put (with_tick_counter c g) ;;
  ret c.

(** [inline int64 CurrentTick() { return g_tick_counter; }] *)
Definition CurrentTick : M int64 :=
  g <- get ;; ret (g_tick_counter g).

(** [n] sequential calls; the values returned, in call order. *)
Fixpoint repeat_call {A : Type} (f : M A) (n : nat) : M (list A) :=
  match n with
  | O => ret []
  | S n' => x <- f ;; xs <- repeat_call f n' ;; ret (x :: xs)
  end.

(** ** Debug flag *)

(** [inline bool DebugMode() { return debug_mode; }] *)
Definition DebugMode : M bool :=
  g <- get ;; ret (debug_mode g).

(** [inline void SetDebugMode(bool b) { debug_mode = b; }] *)
Definition SetDebugMode (b : bool) : M unit :=
  g <- get ;; put (with_debug_mode b g).

(** One call per element of [xs], in order. *)
Fixpoint for_each {A : Type} (f : A -> M unit) (xs : list A) : M unit :=
  match xs with
  | [] => ret tt
  | x :: xs' => f x ;; for_each f xs'
  end.

(** The values of the [WithDtypeAs] (resp. [WithDeviceAs]) guards declared in
    a nest, outermost first: the last element belongs to the innermost guard
    of that class. *)
Definition dtypes_declared (ds : list guard_decl) : list DataType :=
  flat_map (fun d => match d with
                     | DeclWithDtypeAs dt => [dt]
                     | DeclWithDeviceAs _ => []
                     end) ds.

Definition devices_declared (ds : list guard_decl) : list Device :=
  flat_map (fun d => match d with
                     | DeclWithDtypeAs _ => []
                     | DeclWithDeviceAs dev => [dev]
                     end) ds.

(** * Properties *)

(** ** SizeOf *)

(** Outside the three case labels no statement of the switch runs. *)
Lemma SizeOf_no_label (d : DataType) :
  DataType_known d = false -> SizeOf d = Falls.
Proof.
  unfold DataType_known, kDefaultDtype, kFloatDtype, kDoubleDtype.
  intros H.
  apply orb_false_iff in H as [H H2].
  apply orb_false_iff in H as [H0 H1].
  apply Z.eqb_neq in H0, H1, H2.
  destruct d as [|p|p]; [congruence | | reflexivity].
  destruct p as [p|p|]; try congruence;
    destruct p; try reflexivity; congruence.
Qed.

(** The diagnostic branch is taken for [kDoubleDtype] and nothing else. *)
Lemma SizeOf_Throws_inv (d : DataType) (msg : string) :
  SizeOf d = Throws msg -> d = kDoubleDtype.
Proof.
  destruct d as [|p|p]; try discriminate.
  destruct p as [p|p|]; try discriminate;
    destruct p; try discriminate; reflexivity.
Qed.

(** C1 (as the code has it): of the two concrete variants only
    [kFloatDtype] is given a width, 8; [SizeOf kDoubleDtype] takes the
    [KALDI_ERR] branch with the text "Invalid data-type 2" and yields no
    width. *)
Theorem SizeOf_kDoubleDtype_fails :
  DataType_concrete kDoubleDtype = true
  /\ SizeOf kDoubleDtype = Throws "Invalid data-type 2"
  /\ returns_width (SizeOf kDoubleDtype) = false
  /\ SizeOf kFloatDtype = Returns 8.
Proof. repeat split. Qed.

(** C3 (as the code has it): 3 is a value a [DataType] can hold and is none
    of the enumerators; [SizeOf 3] matches no case label, raises no
    diagnostic and leaves the function without executing a [return]. *)
Theorem SizeOf_unknown_no_diagnostic :
  DataType_in_range 3 = true
  /\ DataType_known 3 = false
  /\ SizeOf 3 = Falls
  /\ fails_naming 3 (SizeOf 3) = false.
Proof. repeat split. Qed.

(** ** Register state *)

(** Running a sequence is running its parts in order. *)
Lemma runState_bind {A B : Type} (c : M A) (k : A -> M B) (g : Globals) :
  runState (x <- c ;; k x) g =
  runState (k (fst (runState c g))) (snd (runState c g)).
Proof. cbn. destruct (runState c g); reflexivity. Qed.

Lemma runState_ret {A : Type} (x : A) (g : Globals) :
  runState (ret x : M A) g = (x, g).
Proof. reflexivity. Qed.

Lemma run_GetDefaultDevice (g : Globals) :
  runState GetDefaultDevice g = (default_device (registers g), g).
Proof. reflexivity. Qed.

Lemma run_SetDefaultDevice (d : Device) (g : Globals) :
  runState (SetDefaultDevice d) g = (tt, with_default_device d g).
Proof. reflexivity. Qed.

Lemma run_GetDefaultDtype (g : Globals) :
  runState GetDefaultDtype g = (default_dtype (registers g), g).
Proof. reflexivity. Qed.

Lemma run_SetDefaultDtype (d : DataType) (g : Globals) :
  runState (SetDefaultDtype d) g = (tt, with_default_dtype d g).
Proof. reflexivity. Qed.

Lemma last_cons_shift {A : Type} (l : list A) (a d : A) :
  last (a :: l) d = last l a.
Proof.
  revert a d; induction l as [|b l IH]; intros a d; [reflexivity|].
  change (last (a :: b :: l) d) with (last (b :: l) d).
  rewrite (IH b d), (IH b a). reflexivity.
Qed.

(** After the calls [cs], each register holds the argument of its most
    recent setter call, or what it held before when there was none. *)
Lemma do_calls_registers (cs : list register_call) (g : Globals) :
  let g' := snd (runState (do_calls cs) g) in
  default_device (registers g')
    = last (devices_installed cs) (default_device (registers g))
  /\ default_dtype (registers g')
    = last (dtypes_installed cs) (default_dtype (registers g)).
Proof.
  revert g; induction cs as [|c cs IH]; intros g; [split; reflexivity|].
  cbn zeta in *.
  change (do_calls (c :: cs))
    with (r <- do_call c ;; rs <- do_calls cs ;; ret (r :: rs)).
  rewrite runState_bind, runState_bind, runState_ret.
  cbn [snd].
  destruct (IH (snd (runState (do_call c) g))) as [IHdev IHdt].
  rewrite IHdev, IHdt.
  destruct c as [d|d| |]; cbn [devices_installed dtypes_installed flat_map app];
    rewrite ?last_cons_shift; split; reflexivity.
Qed.

(** A sequence of calls runs its first part, then the rest from the state
    the first part left. *)
Lemma do_calls_app (pre post : list register_call) (g : Globals) :
  runState (do_calls (pre ++ post)) g
    = (fst (runState (do_calls pre) g)
         ++ fst (runState (do_calls post) (snd (runState (do_calls pre) g))),
       snd (runState (do_calls post) (snd (runState (do_calls pre) g)))).
Proof.
  revert g; induction pre as [|c pre IH]; intros g.
  - cbn [app do_calls]. rewrite runState_ret. cbn [fst snd app].
    destruct (runState (do_calls post) g); reflexivity.
  - cbn [app do_calls]. rewrite !runState_bind, !runState_ret.
    cbn [fst snd]. rewrite IH. reflexivity.
Qed.

Lemma do_calls_length (cs : list register_call) (g : Globals) :
  List.length (fst (runState (do_calls cs) g)) = List.length cs.
Proof.
  revert g; induction cs as [|c cs IH]; intros g; [reflexivity|].
  cbn [do_calls]. rewrite !runState_bind, runState_ret.
  cbn [fst List.length]. rewrite IH. reflexivity.
Qed.

(** What the call following [pre] returns, inside a longer sequence. *)
Lemma do_calls_nth (pre post : list register_call) (c : register_call)
  (g : Globals) :
  nth_error (evalState (do_calls (pre ++ c :: post)) g) (List.length pre)
    = Some (evalState (do_call c) (execState (do_calls pre) g)).
Proof.
  unfold evalState, execState. rewrite do_calls_app. cbn [fst].
  rewrite nth_error_app2 by (rewrite do_calls_length; lia).
  rewrite do_calls_length, Nat.sub_diag.
  cbn [do_calls]. rewrite !runState_bind, runState_ret. reflexivity.
Qed.

(** C7: after any sequence [cs] of setter and getter calls, made from any
    state [g], [GetDefaultDevice] (resp. [GetDefaultDtype]) returns the
    argument of the most recent [SetDefaultDevice] (resp. [SetDefaultDtype])
    call of [cs], and the value the register had in [g] when [cs] has no
    such call; at process start these are the CPU device and the chosen
    default dtype.  The same holds for a getter call in the middle of a
    sequence, with respect to the calls [pre] before it.  A setter
    overwrites whatever the register held, and a getter changes nothing. *)
Theorem getters_return_most_recent_set (g : Globals) (cs : list register_call) :
  evalState (do_calls cs ;; GetDefaultDevice) g
    = last (devices_installed cs) (default_device (registers g))
  /\ evalState (do_calls cs ;; GetDefaultDtype) g
    = last (dtypes_installed cs) (default_dtype (registers g))
  /\ (forall post,
        nth_error (evalState (do_calls (cs ++ CallGetDefaultDevice :: post)) g)
                  (List.length cs)
          = Some (ResDevice (last (devices_installed cs)
                                  (default_device (registers g))))
        /\ nth_error (evalState (do_calls (cs ++ CallGetDefaultDtype :: post)) g)
                     (List.length cs)
          = Some (ResDtype (last (dtypes_installed cs)
                                 (default_dtype (registers g)))))
  /\ (forall dtype0,
        evalState GetDefaultDevice (initial_globals dtype0) = Device_new
        /\ evalState GetDefaultDtype (initial_globals dtype0) = dtype0)
  /\ (forall d, evalState (SetDefaultDevice d ;; GetDefaultDevice) g = d)
  /\ (forall d, evalState (SetDefaultDtype d ;; GetDefaultDtype) g = d)
  /\ execState GetDefaultDevice g = g
  /\ execState GetDefaultDtype g = g.
Proof.
  destruct (do_calls_registers cs g) as [Hdev Hdt]. cbn zeta in Hdev, Hdt.
  repeat apply conj; try reflexivity.
  - unfold evalState.
    rewrite runState_bind, run_GetDefaultDevice. exact Hdev.
  - unfold evalState.
    rewrite runState_bind, run_GetDefaultDtype. exact Hdt.
  - intros post. rewrite !do_calls_nth. unfold evalState, execState.
    cbn [do_call]. rewrite !runState_bind, runState_ret,
      run_GetDefaultDevice, run_GetDefaultDtype.
    cbn [fst]. rewrite Hdev, Hdt. split; reflexivity.
  - intros dtype0; split; reflexivity.
Qed.

(** ** Scoped guards *)

(** Destroying a guard right after its construction undoes the
    construction. *)
Lemma construct_destroy (d : guard_decl) (g : Globals) :
  runState (destroy_guard (fst (runState (construct_guard d) g)))
           (snd (runState (construct_guard d) g)) = (tt, g).
Proof.
  destruct d as [dt|dev]; destruct g as [[dev0 dt0] c b]; reflexivity.
Qed.

Lemma leave_scopes_nil (n : nat) (g : Globals) :
  runState (leave_scopes n []) g = ([], g).
Proof. destruct n; reflexivity. Qed.

(** Leaving [n + m] scopes is leaving [n], then [m] more. *)
Lemma leave_scopes_add (n m : nat) (live : list guard_obj) (g : Globals) :
  runState (leave_scopes (n + m) live) g =
  runState (leave_scopes m (fst (runState (leave_scopes n live) g)))
           (snd (runState (leave_scopes n live) g)).
Proof.
  revert live g; induction n as [|n IH]; intros live g; [reflexivity|].
  destruct live as [|o live].
  - cbn [Nat.add leave_scopes]. rewrite runState_ret. cbn [fst snd].
    rewrite leave_scopes_nil. reflexivity.
  - cbn [Nat.add leave_scopes].
    rewrite !runState_bind. apply IH.
Qed.

(** Entering scopes and leaving as many gives back the state and the open
    guards there were before. *)
Lemma enter_leave_scopes (ds : list guard_decl) (live : list guard_obj)
  (g : Globals) :
  runState (l <- enter_scopes ds live ;; leave_scopes (List.length ds) l) g
    = (live, g).
Proof.
  revert live g; induction ds as [|d ds IH]; intros live g; [reflexivity|].
  rewrite runState_bind.
  cbn [enter_scopes List.length]. rewrite runState_bind.
  replace (S (List.length ds)) with (List.length ds + 1)%nat by lia.
  rewrite leave_scopes_add.
  specialize (IH (fst (runState (construct_guard d) g) :: live)
                 (snd (runState (construct_guard d) g))).
  rewrite runState_bind in IH. rewrite IH. cbn [fst snd leave_scopes].
  rewrite runState_bind, construct_destroy. reflexivity.
Qed.

(** Whatever the body of a guarded block does to the registers, the guarded
    register is back to its value from before the block once the block is
    left. *)
Lemma WithDtypeAs_block_restores {A : Type} (dt : DataType) (body : M A)
  (g : Globals) :
  default_dtype (registers (execState (WithDtypeAs.block dt body) g))
    = default_dtype (registers g).
Proof.
  unfold execState, WithDtypeAs.block.
  rewrite !runState_bind.
  destruct (runState body _) as [r g2]. reflexivity.
Qed.

Lemma WithDeviceAs_block_restores {A : Type} (dev : Device) (body : M A)
  (g : Globals) :
  default_device (registers (execState (WithDeviceAs.block dev body) g))
    = default_device (registers g).
Proof.
  unfold execState, WithDeviceAs.block.
  rewrite !runState_bind.
  destruct (runState body _) as [r g2]. reflexivity.
Qed.

(** C4: from any state [g],
    - constructing a [WithDtypeAs] / [WithDeviceAs] guard installs the new
      value, and destroying it gives back the state of its construction;
    - a guarded block restores its register whatever its body does;
    - with a guard [G1] (value [a]) and inside it a guard [G2] (value [b]),
      the register reads [a] once [G2] is destroyed and its original value
      once [G1] is destroyed too;
    - for any nest of guards of either class, opened on top of any other
      nest [outer], leaving the inner scopes in last-in-first-out order gives
      exactly the state and open guards there were after entering [outer],
      and leaving every scope gives back [g]. *)
Theorem guards_restore_lifo (g : Globals) :
  (forall dt,
      evalState (x <- WithDtypeAs.ctor dt ;; GetDefaultDtype) g = dt
      /\ runState (x <- WithDtypeAs.ctor dt ;; WithDtypeAs.dtor x) g = (tt, g))
  /\ (forall dev,
      evalState (x <- WithDeviceAs.ctor dev ;; GetDefaultDevice) g = dev
      /\ runState (x <- WithDeviceAs.ctor dev ;; WithDeviceAs.dtor x) g = (tt, g))
  /\ (forall (A : Type) dt (body : M A),
      evalState (WithDtypeAs.block dt body ;; GetDefaultDtype) g
        = default_dtype (registers g))
  /\ (forall (A : Type) dev (body : M A),
      evalState (WithDeviceAs.block dev body ;; GetDefaultDevice) g
        = default_device (registers g))
  /\ (forall a b,
      evalState (G1 <- WithDtypeAs.ctor a ;;
                 G2 <- WithDtypeAs.ctor b ;;
                 WithDtypeAs.dtor G2 ;;
                 after_G2 <- GetDefaultDtype ;;
                 WithDtypeAs.dtor G1 ;;
                 after_G1 <- GetDefaultDtype ;;
                 ret (after_G2, after_G1)) g
        = (a, default_dtype (registers g)))
  /\ (forall a b,
      evalState (G1 <- WithDeviceAs.ctor a ;;
                 G2 <- WithDeviceAs.ctor b ;;
                 WithDeviceAs.dtor G2 ;;
                 after_G2 <- GetDefaultDevice ;;
                 WithDeviceAs.dtor G1 ;;
                 after_G1 <- GetDefaultDevice ;;
                 ret (after_G2, after_G1)) g
        = (a, default_device (registers g)))
  /\ (forall outer inner live,
      runState (l1 <- enter_scopes outer live ;;
                l2 <- enter_scopes inner l1 ;;
                leave_scopes (List.length inner) l2) g
        = runState (enter_scopes outer live) g)
  /\ (forall ds live,
      runState (l <- enter_scopes ds live ;;
                leave_scopes (List.length ds) l) g = (live, g)).
Proof.
  repeat apply conj.
  - intros dt; split; [reflexivity|].
    destruct g as [[dev0 dt0] c b]; reflexivity.
  - intros dev; split; [reflexivity|].
    destruct g as [[dev0 dt0] c b]; reflexivity.
  - intros A dt body. unfold evalState.
    rewrite runState_bind, run_GetDefaultDtype. cbn [fst].
    apply (WithDtypeAs_block_restores dt body g).
  - intros A dev body. unfold evalState.
    rewrite runState_bind, run_GetDefaultDevice. cbn [fst].
    apply (WithDeviceAs_block_restores dev body g).
  - intros a b. destruct g as [[dev0 dt0] c b0]; reflexivity.
  - intros a b. destruct g as [[dev0 dt0] c b0]; reflexivity.
  - intros outer inner live.
    rewrite runState_bind.
    rewrite enter_leave_scopes.
    destruct (runState (enter_scopes outer live) g); reflexivity.
  - intros ds live. apply enter_leave_scopes.
Qed.

(** The scenario of the spec: default dtype Float, [G1] overrides to Double,
    [G2] inside it overrides to Float. *)
Example guards_dtype_scenario :
  evalState (G1 <- WithDtypeAs.ctor kDoubleDtype ;;
             in_G1 <- GetDefaultDtype ;;
             G2 <- WithDtypeAs.ctor kFloatDtype ;;
             in_G2 <- GetDefaultDtype ;;
             WithDtypeAs.dtor G2 ;;
             after_G2 <- GetDefaultDtype ;;
             WithDtypeAs.dtor G1 ;;
             after_G1 <- GetDefaultDtype ;;
             ret [in_G1; in_G2; after_G2; after_G1])
            (initial_globals kFloatDtype)
  = [kDoubleDtype; kFloatDtype; kDoubleDtype; kFloatDtype].
Proof. reflexivity. Qed.

(** ** TensorOptions *)

(** Where the dtype of a constructed [TensorOptions] comes from: the
    caller's dtype when one is handed over, the register otherwise. *)
Lemma TensorOptions_construct_dtype (a : ctor_args) (g : Globals) :
  dtype (evalState (TensorOptions_construct a) g)
    = match supplied_dtype a with
      | Some d => d
      | None => default_dtype (registers g)
      end.
Proof. destruct a; reflexivity. Qed.

(** No constructor writes a global. *)
Lemma TensorOptions_construct_reads_only (a : ctor_args) (g : Globals) :
  execState (TensorOptions_construct a) g = g.
Proof. destruct a; reflexivity. Qed.

(** C2 (as stated) fails: [TensorOptions(kDefaultDtype)] stores the
    placeholder it is given. *)
Lemma TensorOptions_keeps_placeholder :
  ~ (forall (g : Globals) (a : ctor_args),
        DataType_concrete (dtype (evalState (TensorOptions_construct a) g)) = true
        /\ Device_concrete (device (evalState (TensorOptions_construct a) g)) = true).
Proof.
  intros H.
  destruct (H (initial_globals kFloatDtype) (ArgsDtype kDefaultDtype)) as [Hdt _].
  discriminate Hdt.
Qed.

(** C2 (amended): every constructed [TensorOptions] has a concrete device,
    and a concrete dtype provided the dtype it is built from is concrete:
    the dtype handed to the constructor (or held by the options copied
    from) when there is one, the default-dtype register otherwise. *)
Theorem TensorOptions_concrete (g : Globals) (a : ctor_args) :
  DataType_concrete (match supplied_dtype a with
                     | Some d => d
                     | None => default_dtype (registers g)
                     end) = true ->
  DataType_concrete (dtype (evalState (TensorOptions_construct a) g)) = true
  /\ Device_concrete (device (evalState (TensorOptions_construct a) g)) = true.
Proof.
  intros H. rewrite TensorOptions_construct_dtype. split; [exact H|].
  unfold Device_concrete.
  destruct (device_type (device (evalState (TensorOptions_construct a) g)));
    reflexivity.
Qed.

(** [TensorOptions()] at process start with default dtype Double. *)
Lemma TensorOptions_concrete_witness :
  DataType_concrete (dtype (evalState (TensorOptions_construct ArgsNone)
                                      (initial_globals kDoubleDtype))) = true
  /\ Device_concrete (device (evalState (TensorOptions_construct ArgsNone)
                                        (initial_globals kDoubleDtype))) = true.
Proof.
  apply (TensorOptions_concrete (initial_globals kDoubleDtype) ArgsNone).
  reflexivity.
Defined.

(** C5: from any state [g], [TensorOptions()] is (default dtype, default
    device); [TensorOptions(dt)] is ([dt], default device);
    [TensorOptions(dt, dev)] is ([dt], [dev]); [TensorOptions(dev)] and
    [TensorOptions(t)] are (default dtype, the device given).  The registers
    are read while the constructor runs -- it changes no global, and what
    runs after it does not change the options it returned. *)
Theorem TensorOptions_resolution (g : Globals) :
  runState TensorOptions_new g
    = (MkTensorOptions (default_dtype (registers g))
                       (default_device (registers g)), g)
  /\ (forall dt,
      runState (TensorOptions_of_dtype dt) g
        = (MkTensorOptions dt (default_device (registers g)), g))
  /\ (forall dt dev,
      runState (TensorOptions_of_dtype_device dt dev) g
        = (MkTensorOptions dt dev, g)
      /\ runState (TensorOptions_of_dtype_device' dt dev) g
        = (MkTensorOptions dt dev, g))
  /\ (forall dev,
      runState (TensorOptions_of_device dev) g
        = (MkTensorOptions (default_dtype (registers g)) dev, g))
  /\ (forall t,
      runState (TensorOptions_of_device_type t) g
        = (MkTensorOptions (default_dtype (registers g)) (MkDevice t), g))
  /\ (forall a (B : Type) (later : M B),
      evalState (o <- TensorOptions_construct a ;; later ;; ret o) g
        = evalState (TensorOptions_construct a) g).
Proof.
  repeat apply conj; try reflexivity.
  - intros dt dev; split; reflexivity.
  - intros a B later. unfold evalState.
    rewrite !runState_bind.
    destruct (runState later _) as [x g']. reflexivity.
Qed.

(** The resolver examples of the spec: default device CPU, default dtype
    Float. *)
Example TensorOptions_precedence :
  let g := initial_globals kFloatDtype in
  evalState TensorOptions_new g = MkTensorOptions kFloatDtype (MkDevice kCpuDevice)
  /\ evalState (TensorOptions_of_dtype kDoubleDtype) g
     = MkTensorOptions kDoubleDtype (MkDevice kCpuDevice)
  /\ evalState (TensorOptions_of_dtype_device kDoubleDtype (Device_of_type kCudaDevice)) g
     = MkTensorOptions kDoubleDtype (MkDevice kCudaDevice).
Proof. repeat split. Qed.

(** The end-to-end scenario of the spec: a device guard, a dtype guard nested
    in it, [TensorOptions()] read at each level. *)
Example TensorOptions_under_guards :
  evalState (G1 <- WithDeviceAs.ctor (Device_of_type kCudaDevice) ;;
             G2 <- WithDtypeAs.ctor kDoubleDtype ;;
             o1 <- TensorOptions_new ;;
             WithDtypeAs.dtor G2 ;;
             o2 <- TensorOptions_new ;;
             WithDeviceAs.dtor G1 ;;
             o3 <- TensorOptions_new ;;
             ret [o1; o2; o3])
            (initial_globals kFloatDtype)
  = [MkTensorOptions kDoubleDtype (MkDevice kCudaDevice);
     MkTensorOptions kFloatDtype (MkDevice kCudaDevice);
     MkTensorOptions kFloatDtype (MkDevice kCpuDevice)].
Proof. reflexivity. Qed.

(** C10: [Device()] has [device_type] [kCpuDevice], and for every tag [t],
    [TensorOptions(t)] holds a device whose [device_type] is [t]; the device
    is the tag's promotion [Device(t)] and carries nothing else. *)
Theorem Device_default_and_promotion :
  device_type Device_new = kCpuDevice
  /\ (forall (g : Globals) (t : DeviceType),
        device_type (device (evalState (TensorOptions_of_device_type t) g)) = t
        /\ device (evalState (TensorOptions_of_device_type t) g)
           = Device_of_type t).
Proof. split; [reflexivity|]. intros g t; split; reflexivity. Qed.

(** ** Tick counter *)

(** Within the range of [int64] the conversion changes nothing. *)
Lemma to_int64_in_range (z : Z) :
  INT64_MIN <= z <= INT64_MAX -> to_int64 z = z.
Proof.
  unfold to_int64, wrap_signed, INT64_MIN, INT64_MAX.
  change (2 ^ (64 - 1)) with (2 ^ 63).
  change (2 ^ 64) with (2 * 2 ^ 63).
  generalize (2 ^ 63) (eq_refl : (0 <? 2 ^ 63) = true).
  intros h Hh Hz. apply Z.ltb_lt in Hh.
  rewrite Z.mod_small; lia.
Qed.

Lemma run_NextTick (g : Globals) :
  runState NextTick g
    = (to_int64 (g_tick_counter g + 1),
       with_tick_counter (to_int64 (g_tick_counter g + 1)) g).
Proof. reflexivity. Qed.

Lemma run_CurrentTick (g : Globals) :
  runState CurrentTick g = (g_tick_counter g, g).
Proof. reflexivity. Qed.

Lemma with_tick_counter_same (g : Globals) :
  with_tick_counter (g_tick_counter g) g = g.
Proof. destruct g; reflexivity. Qed.

(** [n] calls from counter value [c], none of which overflows, return
    [c + 1], ..., [c + n] and leave the counter at [c + n]. *)
Lemma NextTick_repeat (n : nat) (g : Globals) :
  INT64_MIN <= g_tick_counter g ->
  g_tick_counter g + Z.of_nat n <= INT64_MAX ->
  runState (repeat_call NextTick n) g
    = (map (fun i => g_tick_counter g + Z.of_nat i) (seq 1 n),
       with_tick_counter (g_tick_counter g + Z.of_nat n) g).
Proof.
  revert g; induction n as [|n IH]; intros g Hlo Hhi.
  - cbn [repeat_call seq map]. rewrite runState_ret, Z.add_0_r,
      with_tick_counter_same. reflexivity.
  - cbn [repeat_call]. rewrite !runState_bind, run_NextTick, runState_ret.
    cbn [fst snd].
    rewrite to_int64_in_range by lia.
    rewrite IH; cbn [g_tick_counter with_tick_counter]; try lia.
    cbn [fst snd]. f_equal.
    + change (seq 1 (S n)) with (1%nat :: seq 2 n).
      cbn [map]. f_equal.
      rewrite <- (seq_shift n 1), map_map. apply map_ext. intros i. lia.
    + unfold with_tick_counter. cbn [registers debug_mode]. f_equal. lia.
Qed.

Lemma ticks_sorted (start n : nat) :
  StronglySorted Z.lt (map Z.of_nat (seq start n)).
Proof.
  revert start; induction n as [|n IH]; intros start; cbn [seq map].
  - constructor.
  - constructor; [apply IH|].
    apply Forall_forall. intros x Hx.
    apply in_map_iff in Hx as [i [<- Hi]].
    apply in_seq in Hi. lia.
Qed.

Lemma ticks_distinct (start n : nat) :
  NoDup (map Z.of_nat (seq start n)).
Proof.
  apply Injective_map_NoDup; [|apply seq_NoDup].
  intros x y. apply Nat2Z.inj.
Qed.

(** C6: from a counter at 0, [N] sequential calls of [NextTick] (none of
    them incrementing past [INT64_MAX]) return 1, 2, ..., [N]: [N] values,
    the first one 1, strictly increasing and pairwise distinct; the counter
    ends at [N].  Each call stores the incremented counter and returns the
    stored value. *)
Theorem NextTick_sequence (g : Globals) (N : nat) :
  g_tick_counter g = 0 ->
  Z.of_nat N <= INT64_MAX ->
  let ticks := evalState (repeat_call NextTick N) g in
  ticks = map Z.of_nat (seq 1 N)
  /\ List.length ticks = N
  /\ hd_error ticks = match N with O => None | S _ => Some 1 end
  /\ StronglySorted Z.lt ticks
  /\ NoDup ticks
  /\ g_tick_counter (execState (repeat_call NextTick N) g) = Z.of_nat N
  /\ (forall g' : Globals,
        g_tick_counter g' < INT64_MAX -> INT64_MIN <= g_tick_counter g' ->
        evalState NextTick g' = g_tick_counter g' + 1
        /\ execState NextTick g' = with_tick_counter (g_tick_counter g' + 1) g').
Proof.
  intros H0 HN ticks.
  assert (Hticks : ticks = map Z.of_nat (seq 1 N)).
  { unfold ticks, evalState. rewrite NextTick_repeat.
    - cbn [fst]. rewrite H0. apply map_ext. intros i. lia.
    - rewrite H0. unfold INT64_MIN. lia.
    - rewrite H0. lia. }
  repeat apply conj.
  - exact Hticks.
  - rewrite Hticks, length_map, length_seq. reflexivity.
  - rewrite Hticks. destruct N; reflexivity.
  - rewrite Hticks. apply ticks_sorted.
  - rewrite Hticks. apply ticks_distinct.
  - unfold execState. rewrite NextTick_repeat.
    + cbn [snd g_tick_counter with_tick_counter]. lia.
    + rewrite H0. unfold INT64_MIN. lia.
    + rewrite H0. lia.
  - intros g' Hhi Hlo. unfold evalState, execState.
    rewrite run_NextTick. cbn [fst snd].
    rewrite to_int64_in_range by lia. split; reflexivity.
Qed.

(** Three calls at process start return 1, 2, 3. *)
Lemma NextTick_sequence_witness :
  evalState (repeat_call NextTick 3) (initial_globals kFloatDtype) = [1; 2; 3]
  /\ StronglySorted Z.lt
       (evalState (repeat_call NextTick 3) (initial_globals kFloatDtype))
  /\ NoDup (evalState (repeat_call NextTick 3) (initial_globals kFloatDtype)).
Proof.
  assert (H0 : g_tick_counter (initial_globals kFloatDtype) = 0) by reflexivity.
  assert (HN : Z.of_nat 3 <= INT64_MAX) by (vm_compute; discriminate).
  destruct (NextTick_sequence (initial_globals kFloatDtype) 3 H0 HN)
    as (Heq & _ & _ & Hsorted & Hnodup & _).
  repeat split; assumption.
Defined.

(** After any number of [NextTick] calls the counter holds the value the
    last of them returned. *)
Lemma NextTick_repeat_last (n : nat) (g : Globals) :
  g_tick_counter (execState (repeat_call NextTick n) g)
    = last (evalState (repeat_call NextTick n) g) (g_tick_counter g).
Proof.
  unfold execState, evalState.
  revert g; induction n as [|n IH]; intros g; [reflexivity|].
  cbn [repeat_call]. rewrite !runState_bind, run_NextTick, runState_ret.
  cbn [fst snd]. rewrite IH, last_cons_shift. reflexivity.
Qed.

(** C8: [CurrentTick] returns the counter and changes no global.  At process
    start it returns 0; after [n] calls of [NextTick] it returns the value
    the last of them returned (the counter as it was when [n] is 0); calling
    it any number of times changes neither the state nor the result of
    whatever runs next, a later [NextTick] or [CurrentTick] included. *)
Theorem CurrentTick_reads_only (g : Globals) :
  runState CurrentTick g = (g_tick_counter g, g)
  /\ (forall dtype0, evalState CurrentTick (initial_globals dtype0) = 0)
  /\ evalState (NextTick ;; CurrentTick) g = evalState NextTick g
  /\ (forall n,
        evalState (repeat_call NextTick n ;; CurrentTick) g
          = last (evalState (repeat_call NextTick n) g) (g_tick_counter g))
  /\ (forall n, execState (repeat_call CurrentTick n) g = g)
  /\ (forall n (B : Type) (later : M B),
        runState (repeat_call CurrentTick n ;; later) g = runState later g)
  /\ (forall n,
        runState (repeat_call CurrentTick n ;; NextTick) g = runState NextTick g
        /\ runState (repeat_call CurrentTick n ;; CurrentTick) g
           = runState CurrentTick g).
Proof.
  assert (Hrep : forall n g0, execState (repeat_call CurrentTick n) g0 = g0).
  { intros n; induction n as [|n IH]; intros g0; [reflexivity|].
    unfold execState in *. cbn [repeat_call].
    rewrite !runState_bind, run_CurrentTick, runState_ret. cbn [fst snd].
    apply IH. }
  assert (Hlater : forall n (B : Type) (later : M B),
             runState (repeat_call CurrentTick n ;; later) g = runState later g).
  { intros n B later. rewrite runState_bind.
    specialize (Hrep n g). unfold execState in Hrep. rewrite Hrep.
    reflexivity. }
  repeat apply conj; try reflexivity.
  - intros n. unfold evalState at 1.
    rewrite runState_bind, run_CurrentTick. cbn [fst].
    apply NextTick_repeat_last.
  - intros n. apply Hrep.
  - exact Hlater.
  - intros n; split; apply Hlater.
Qed.

(** ** Debug flag *)

Lemma run_SetDebugMode (b : bool) (g : Globals) :
  runState (SetDebugMode b) g = (tt, with_debug_mode b g).
Proof. reflexivity. Qed.

Lemma for_each_SetDebugMode (bs : list bool) (g : Globals) :
  debug_mode (execState (for_each SetDebugMode bs) g) = last bs (debug_mode g).
Proof.
  revert g; induction bs as [|b bs IH]; intros g; [reflexivity|].
  unfold execState in *. cbn [for_each].
  rewrite runState_bind, run_SetDebugMode. cbn [fst snd].
  rewrite IH, last_cons_shift. reflexivity.
Qed.

(** C9: [DebugMode] returns false at process start, and after any sequence
    of [SetDebugMode] calls, made from any state, it returns the argument of
    the last call of the sequence (the flag as it was when the sequence is
    empty). *)
Theorem DebugMode_reflects_last_set (g : Globals) (bs : list bool) :
  (forall dtype0, evalState DebugMode (initial_globals dtype0) = false)
  /\ evalState (for_each SetDebugMode bs ;; DebugMode) g = last bs (debug_mode g)
  /\ (forall b, evalState (for_each SetDebugMode (bs ++ [b]) ;; DebugMode) g = b).
Proof.
  assert (H : forall l, evalState (for_each SetDebugMode l ;; DebugMode) g
                        = last l (debug_mode g)).
  { intros l. unfold evalState. rewrite runState_bind.
    rewrite <- for_each_SetDebugMode. reflexivity. }
  repeat apply conj.
  - reflexivity.
  - apply H.
  - intros b. rewrite H. apply last_last.
Qed.

(** * Further properties of the header's code *)

(** ** SizeOf: which values get a width, which the diagnostic *)

(** X1: [SizeOf] executes a [return] for two values only: 0
    ([kDefaultDtype]), with width 4, and 1 ([kFloatDtype]), with width 8.
    In particular the [return 0;] that follows [KALDI_ERR] never yields a
    result. *)
Theorem SizeOf_Returns_inv (d : DataType) (w : int32) :
  SizeOf d = Returns w ->
  (d = kDefaultDtype /\ w = 4) \/ (d = kFloatDtype /\ w = 8).
Proof.
  intros H.
  destruct d as [|p|p]; [left | | discriminate H].
  - injection H as <-. split; reflexivity.
  - right.
    destruct p as [p|p|];
      [destruct p; discriminate H | destruct p; discriminate H |].
    injection H as <-. split; reflexivity.
Qed.

(** [SizeOf(kFloatDtype)] returns 8. *)
Lemma SizeOf_Returns_inv_witness :
  (kFloatDtype = kDefaultDtype /\ 8 = 4) \/ (kFloatDtype = kFloatDtype /\ 8 = 8).
Proof. apply (SizeOf_Returns_inv kFloatDtype 8). reflexivity. Defined.

(** X2: when [SizeOf] raises its diagnostic, the argument is 2
    ([kDoubleDtype]) and the text is "Invalid data-type " followed by the
    decimal value of the argument, i.e. "Invalid data-type 2". *)
Theorem SizeOf_Throws_names_value (d : DataType) (msg : string) :
  SizeOf d = Throws msg ->
  d = kDoubleDtype
  /\ msg = "Invalid data-type 2"%string
  /\ fails_naming d (SizeOf d) = true.
Proof.
  intros H.
  assert (Hd : d = kDoubleDtype) by exact (SizeOf_Throws_inv d msg H).
  subst d. injection H as <-. repeat split.
Qed.

(** [SizeOf(kDoubleDtype)] raises "Invalid data-type 2". *)
Lemma SizeOf_Throws_names_value_witness :
  kDoubleDtype = kDoubleDtype
  /\ "Invalid data-type 2"%string = "Invalid data-type 2"%string
  /\ fails_naming kDoubleDtype (SizeOf kDoubleDtype) = true.
Proof.
  apply (SizeOf_Throws_names_value kDoubleDtype "Invalid data-type 2").
  reflexivity.
Defined.

(** ** Guards: order of destruction, independence of the two classes *)

(** X3: two guards on the same register destroyed in the order of their
    construction (first [G1], then [G2]) do not restore it: the register is
    left at the value [G1] installed, which is what [G2] had saved; every
    other global is as before. *)
Theorem guards_same_register_construction_order (g : Globals) :
  (forall a b,
      runState (G1 <- WithDtypeAs.ctor a ;;
                G2 <- WithDtypeAs.ctor b ;;
                WithDtypeAs.dtor G1 ;;
                WithDtypeAs.dtor G2) g
        = (tt, with_default_dtype a g))
  /\ (forall a b,
      runState (G1 <- WithDeviceAs.ctor a ;;
                G2 <- WithDeviceAs.ctor b ;;
                WithDeviceAs.dtor G1 ;;
                WithDeviceAs.dtor G2) g
        = (tt, with_default_device a g)).
Proof. split; intros a b; reflexivity. Qed.

(** X4: a [WithDtypeAs] and a [WithDeviceAs] guard do not interfere: while
    both are alive each register reads its guard's value, whichever was
    constructed first, and destroying them in either order gives back the
    state from before the two constructions. *)
Theorem guards_of_both_classes_independent (g : Globals) (dt : DataType)
  (dev : Device) :
  evalState (G1 <- WithDtypeAs.ctor dt ;;
             G2 <- WithDeviceAs.ctor dev ;;
             x <- GetDefaultDtype ;;
             y <- GetDefaultDevice ;;
             ret (x, y)) g = (dt, dev)
  /\ evalState (G2 <- WithDeviceAs.ctor dev ;;
                G1 <- WithDtypeAs.ctor dt ;;
                x <- GetDefaultDtype ;;
                y <- GetDefaultDevice ;;
                ret (x, y)) g = (dt, dev)
  /\ runState (G1 <- WithDtypeAs.ctor dt ;;
               G2 <- WithDeviceAs.ctor dev ;;
               WithDeviceAs.dtor G2 ;;
               WithDtypeAs.dtor G1) g = (tt, g)
  /\ runState (G1 <- WithDtypeAs.ctor dt ;;
               G2 <- WithDeviceAs.ctor dev ;;
               WithDtypeAs.dtor G1 ;;
               WithDeviceAs.dtor G2) g = (tt, g).
Proof.
  destruct g as [[dev0 dt0] c b]. repeat split.
Qed.

(** The registers after entering a nest of guarded scopes. *)
Lemma enter_scopes_registers (ds : list guard_decl) (live : list guard_obj)
  (g : Globals) :
  let g' := execState (enter_scopes ds live) g in
  default_dtype (registers g')
    = last (dtypes_declared ds) (default_dtype (registers g))
  /\ default_device (registers g')
    = last (devices_declared ds) (default_device (registers g))
  /\ g_tick_counter g' = g_tick_counter g
  /\ debug_mode g' = debug_mode g.
Proof.
  unfold execState.
  revert live g; induction ds as [|d ds IH]; intros live g;
    [repeat split|].
  cbn zeta in *. cbn [enter_scopes]. rewrite runState_bind.
  destruct (IH (fst (runState (construct_guard d) g) :: live)
               (snd (runState (construct_guard d) g)))
    as (Hdt & Hdev & Htick & Hdbg).
  rewrite Hdt, Hdev, Htick, Hdbg.
  destruct d as [dt|dev];
    cbn [dtypes_declared devices_declared flat_map app];
    rewrite ?last_cons_shift; repeat split.
Qed.

Lemma enter_scopes_length (ds : list guard_decl) (live : list guard_obj)
  (g : Globals) :
  List.length (evalState (enter_scopes ds live) g)
    = (List.length ds + List.length live)%nat.
Proof.
  unfold evalState.
  revert live g; induction ds as [|d ds IH]; intros live g; [reflexivity|].
  cbn [enter_scopes]. rewrite runState_bind, IH. cbn [List.length]. lia.
Qed.

(** X5: inside a nest of guarded scopes, entered from any state, each
    register reads the value of the innermost guard of its class -- guards
    of the other class in between do not matter -- and its value from before
    the nest when the nest has no guard of that class.  One guard object is
    alive per scope entered. *)
Theorem nest_reads_innermost_guard (g : Globals) (ds : list guard_decl)
  (live : list guard_obj) :
  evalState (enter_scopes ds live ;; GetDefaultDtype) g
    = last (dtypes_declared ds) (default_dtype (registers g))
  /\ evalState (enter_scopes ds live ;; GetDefaultDevice) g
    = last (devices_declared ds) (default_device (registers g))
  /\ List.length (evalState (enter_scopes ds live) g)
    = (List.length ds + List.length live)%nat.
Proof.
  destruct (enter_scopes_registers ds live g) as (Hdt & Hdev & _).
  unfold execState in Hdt, Hdev. cbn zeta in Hdt, Hdev.
  unfold evalState at 1 2.
  rewrite !runState_bind, run_GetDefaultDtype, run_GetDefaultDevice.
  cbn [fst]. repeat split; try assumption.
  apply enter_scopes_length.
Qed.

(** ** TensorOptions under guards *)

(** X6: [TensorOptions()] constructed inside a [WithDtypeAs] block nested in
    a [WithDeviceAs] block is exactly (the dtype guard's value, the device
    guard's value), and the two blocks leave every global as it was.  Inside
    a guarded block an explicitly given dtype or device still wins over the
    guard's value, and [TensorOptions()] constructed after the block resolves
    against the registers as they were before it. *)
Theorem TensorOptions_under_blocks (g : Globals) (dt : DataType) (dev : Device) :
  runState (WithDeviceAs.block dev (WithDtypeAs.block dt TensorOptions_new)) g
    = (MkTensorOptions dt dev, g)
  /\ (forall dt',
        evalState (WithDtypeAs.block dt (TensorOptions_of_dtype dt')) g
          = MkTensorOptions dt' (default_device (registers g)))
  /\ (forall dev',
        evalState (WithDeviceAs.block dev (TensorOptions_of_device dev')) g
          = MkTensorOptions (default_dtype (registers g)) dev')
  /\ evalState (inside <- WithDtypeAs.block dt TensorOptions_new ;;
                after <- TensorOptions_new ;;
                ret (inside, after)) g
     = (MkTensorOptions dt (default_device (registers g)),
        MkTensorOptions (default_dtype (registers g))
                        (default_device (registers g))).
Proof.
  destruct g as [[dev0 dt0] c b]. repeat split.
Qed.

(** ** Tick counter from any start, and what it leaves alone *)

Lemma offsets_sorted (c : Z) (start n : nat) :
  StronglySorted Z.lt (map (fun i => c + Z.of_nat i) (seq start n)).
Proof.
  revert start; induction n as [|n IH]; intros start; cbn [seq map].
  - constructor.
  - constructor; [apply IH|].
    apply Forall_forall. intros x Hx.
    apply in_map_iff in Hx as [i [<- Hi]].
    apply in_seq in Hi. lia.
Qed.

(** X7: from any counter value [c], [n] sequential [NextTick] calls none of
    which increments past [INT64_MAX] return [c + 1], ..., [c + n]: strictly
    increasing, each greater than what [CurrentTick] returned before the
    calls; [CurrentTick] afterwards returns [c + n]. *)
Theorem NextTick_from_any_counter (g : Globals) (n : nat) :
  INT64_MIN <= g_tick_counter g ->
  g_tick_counter g + Z.of_nat n <= INT64_MAX ->
  let ticks := evalState (repeat_call NextTick n) g in
  ticks = map (fun i => g_tick_counter g + Z.of_nat i) (seq 1 n)
  /\ Forall (fun t => evalState CurrentTick g < t) ticks
  /\ StronglySorted Z.lt ticks
  /\ evalState (repeat_call NextTick n ;; CurrentTick) g
     = g_tick_counter g + Z.of_nat n.
Proof.
  intros Hlo Hhi ticks.
  assert (Hticks : ticks = map (fun i => g_tick_counter g + Z.of_nat i) (seq 1 n)).
  { unfold ticks, evalState. rewrite NextTick_repeat by assumption.
    reflexivity. }
  repeat apply conj.
  - exact Hticks.
  - rewrite Hticks. apply Forall_forall. intros t Ht.
    apply in_map_iff in Ht as [i [<- Hi]]. apply in_seq in Hi.
    unfold evalState. rewrite run_CurrentTick. cbn [fst]. lia.
  - rewrite Hticks. apply offsets_sorted.
  - unfold evalState. rewrite runState_bind, run_CurrentTick.
    rewrite NextTick_repeat by assumption. reflexivity.
Qed.

(** Two calls from a counter at 41 return 42 and 43. *)
Lemma NextTick_from_any_counter_witness :
  evalState (repeat_call NextTick 2)
            (with_tick_counter 41 (initial_globals kFloatDtype)) = [42; 43]
  /\ evalState (repeat_call NextTick 2 ;; CurrentTick)
               (with_tick_counter 41 (initial_globals kFloatDtype)) = 43.
Proof.
  assert (Hlo : INT64_MIN
                <= g_tick_counter (with_tick_counter 41 (initial_globals kFloatDtype)))
    by (vm_compute; discriminate).
  assert (Hhi : g_tick_counter (with_tick_counter 41 (initial_globals kFloatDtype))
                + Z.of_nat 2 <= INT64_MAX)
    by (vm_compute; discriminate).
  destruct (NextTick_from_any_counter
              (with_tick_counter 41 (initial_globals kFloatDtype)) 2 Hlo Hhi)
    as (Heq & _ & _ & Hcur).
  split; [exact Heq | exact Hcur].
Defined.

(** The ticks returned depend on the counter alone, and [NextTick] writes the
    counter alone. *)
Lemma NextTick_repeat_frame (n : nat) (g : Globals) :
  runState (repeat_call NextTick n) g
    = (fst (runState (repeat_call NextTick n)
                     (MkGlobals (MkRegisters Device_new 0) (g_tick_counter g) false)),
       with_tick_counter
         (g_tick_counter (snd (runState (repeat_call NextTick n) g))) g).
Proof.
  revert g; induction n as [|n IH]; intros g.
  - cbn [repeat_call]. rewrite !runState_ret. cbn [fst snd].
    rewrite with_tick_counter_same. reflexivity.
  - cbn [repeat_call]. rewrite !runState_bind, !run_NextTick, !runState_ret.
    cbn [fst snd g_tick_counter].
    rewrite (IH (with_tick_counter _ g)).
    rewrite (IH (with_tick_counter _ (MkGlobals _ _ _))).
    reflexivity.
Qed.

Lemma for_each_SetDebugMode_state (bs : list bool) (g : Globals) :
  execState (for_each SetDebugMode bs) g
    = with_debug_mode (last bs (debug_mode g)) g.
Proof.
  unfold execState.
  revert g; induction bs as [|b bs IH]; intros g.
  - destruct g; reflexivity.
  - cbn [for_each]. rewrite runState_bind, run_SetDebugMode. cbn [fst snd].
    rewrite IH, last_cons_shift. reflexivity.
Qed.

(** X8: the tick counter and the debug flag do not touch each other, nor the
    default registers: [SetDebugMode] calls before a run of [NextTick] calls
    do not change the ticks returned; [NextTick] calls change neither what
    [DebugMode] returns nor the registers; [SetDebugMode] calls change
    neither the counter nor the registers. *)
Theorem ticks_and_debug_flag_independent (g : Globals) (bs : list bool)
  (n : nat) :
  evalState (for_each SetDebugMode bs ;; repeat_call NextTick n) g
    = evalState (repeat_call NextTick n) g
  /\ evalState (repeat_call NextTick n ;; DebugMode) g = debug_mode g
  /\ registers (execState (repeat_call NextTick n) g) = registers g
  /\ evalState (for_each SetDebugMode bs ;; CurrentTick) g = g_tick_counter g
  /\ registers (execState (for_each SetDebugMode bs) g) = registers g.
Proof.
  pose proof (for_each_SetDebugMode_state bs g) as Hdbg.
  unfold execState in Hdbg.
  unfold evalState, execState.
  rewrite !runState_bind, Hdbg.
  repeat apply conj.
  - rewrite (NextTick_repeat_frame n (with_debug_mode _ g)).
    rewrite (NextTick_repeat_frame n g). reflexivity.
  - rewrite (NextTick_repeat_frame n g). reflexivity.
  - rewrite (NextTick_repeat_frame n g). reflexivity.
  - reflexivity.
  - reflexivity.
Qed.

(** ** What a guarded block keeps of its body *)

(** X9: a guarded block runs its body with the guarded register overridden
    and returns the body's result; when the block is left only the guarded
    register is rolled back -- everything else the body did (ticks issued,
    the debug flag, a change of the other register) stays. *)
Theorem block_rolls_back_own_register_only {A : Type} (g : Globals)
  (body : M A) :
  (forall dt,
      runState (WithDtypeAs.block dt body) g
        = (evalState body (with_default_dtype dt g),
           with_default_dtype (default_dtype (registers g))
             (execState body (with_default_dtype dt g))))
  /\ (forall dev,
      runState (WithDeviceAs.block dev body) g
        = (evalState body (with_default_device dev g),
           with_default_device (default_device (registers g))
             (execState body (with_default_device dev g)))).
Proof.
  split; intros x.
  - unfold WithDtypeAs.block, evalState, execState.
    rewrite !runState_bind.
    change (runState (WithDtypeAs.ctor x) g)
      with (WithDtypeAs.Mk (default_dtype (registers g)),
            with_default_dtype x g).
    cbn [fst snd].
    destruct (runState body (with_default_dtype x g)) as [r g2].
    reflexivity.
  - unfold WithDeviceAs.block, evalState, execState.
    rewrite !runState_bind.
    change (runState (WithDeviceAs.ctor x) g)
      with (WithDeviceAs.Mk (default_device (registers g)),
            with_default_device x g).
    cbn [fst snd].
    destruct (runState body (with_default_device x g)) as [r g2].
    reflexivity.
Qed.
